(** * The article REST handlers of [internal/rest/article.go]

    A shallow embedding of the four fiber handlers ([FetchArticle],
    [GetByID], [Store], [Delete]), of the error translator [ReturnErr] and of
    the status classifier [getStatusCode], followed by the properties the
    specification states about them.

    The handlers are written in a state monad over a [World] that holds what
    a Go handler can touch: the fiber context (request and response), the
    state of the injected [ArticleService], the list of calls made to that
    service, and the logrus output. *)

From Stdlib Require Import ZArith String Ascii List Lia.
From Stdlib Require Import Decimal DecimalString DecimalPos DecimalZ.
From stdpp Require Import base option list strings gmap.

Local Open Scope string_scope.
Local Open Scope list_scope.
Local Open Scope Z_scope.

(** ** Go values *)

(** A Go [error] is an interface value.  Two error values are [==] when they
    have the same dynamic type and value; for the pointers that [errors.New]
    hands out this is identity, which [err_id] stands for.  [Error] is the
    method of the interface. *)
Record goerror := errors_New { err_id : N; Error : string }.

#[global] Instance goerror_eq_dec : EqDecision goerror.
Proof. solve_decision. Defined.

(** The interface type [error]: [None] is [nil]. *)
Definition error : Type := option goerror.

(** A slice: [None] is the nil slice, which is not the empty slice. *)
Definition slice (A : Type) : Type := option (list A).

(** JSON documents, as [encoding/json] produces them for the values the
    handlers write.  A [JString] holds the string the document denotes, in
    UTF-8, and not its escaped text between the quotes. *)
#[warnings="-register-all"]
Inductive json :=
| JNull
| JNumber (n : Z)
| JString (s : string)
| JArray (items : list json)
| JObject (fields : list (string * json)).

(** The member [key] of a JSON object; [None] for a missing member and for
    a document that is not an object. *)
Definition json_field (key : string) (j : json) : option json :=
  match j with
  | JObject fields =>
      snd <$> List.find (λ kv, String.eqb (fst kv) key) fields
  | _ => None
  end.

(** ** [strconv.Atoi]

    The Go standard library's parser, for the 64-bit [int]: an optional sign
    followed by one or more decimal digits, inside the range of [int].  The
    handlers only look at whether [err] is nil, so the result is an [option]:
    [None] stands for a non-nil [*NumError] (syntax or range). *)
Definition intSize : Z := 64.
Definition maxInt : Z := 2 ^ (intSize - 1) - 1.
Definition minInt : Z := - 2 ^ (intSize - 1).

Definition digit (ch : ascii) : option Z :=
  let d := Z.of_N (N_of_ascii ch) - 48 in
  if (0 <=? d) && (d <=? 9) then Some d else None.

Fixpoint digits (s : string) (n : Z) : option Z :=
  match s with
  | EmptyString => Some n
  | String ch rest =>
      match digit ch with
      | Some d => digits rest (n * 10 + d)
      | None => None
      end
  end.

Definition Atoi (s : string) : option Z :=
  match s with
  | EmptyString => None
  | String ch rest =>
      let neg := Ascii.eqb ch "-" in
      let body := if neg || Ascii.eqb ch "+" then rest else s in
      match body with
      | EmptyString => None
      | _ =>
          match digits body 0 with
          | Some n =>
              let v := if neg then - n else n in
              if (minInt <=? v) && (v <=? maxInt) then Some v else None
          | None => None
          end
      end
  end.

(** ** [net/http] status codes *)
Definition StatusOK : Z := 200.
Definition StatusNotFound : Z := 404.
Definition StatusConflict : Z := 409.
Definition StatusInternalServerError : Z := 500.

(** ** The fiber context *)

Record Request := {
  reqQuery : gmap string string;   (* the decoded query string *)
  reqParams : gmap string string   (* the route parameters *)
}.

(** The response under construction.  [respBody = None] is the empty body of
    a response nothing was written to. *)
Record Response := {
  respStatus : Z;
  respHeaders : gmap string string;
  respBody : option json
}.

(** A fresh response: fasthttp's default status and no header, no body. *)
Definition emptyResponse : Response :=
  {| respStatus := StatusOK; respHeaders := ∅; respBody := None |}.

Definition MIMEApplicationJSON : string := "application/json".

(** ** Strings as [encoding/json] writes them

    [utf8.DecodeRuneInString] reads a well-formed sequence of one to four
    bytes, or fails on the first byte.  [utf8First] is its table for the
    first byte: the number of continuation bytes and the range accepted
    for the first of them; the later ones are in [0x80, 0xBF]. *)
Definition utf8First (b : N) : option (nat * N * N) :=
  (if b <? 0x80 then Some (0%nat, 0, 0)
   else if b <? 0xC2 then None
   else if b <? 0xE0 then Some (1%nat, 0x80, 0xBF)
   else if b =? 0xE0 then Some (2%nat, 0xA0, 0xBF)
   else if b =? 0xED then Some (2%nat, 0x80, 0x9F)
   else if b <? 0xF0 then Some (2%nat, 0x80, 0xBF)
   else if b =? 0xF0 then Some (3%nat, 0x90, 0xBF)
   else if b <? 0xF4 then Some (3%nat, 0x80, 0xBF)
   else if b =? 0xF4 then Some (3%nat, 0x80, 0x8F)
   else None)%N.

Definition inRange (lo hi : N) (ch : ascii) : bool :=
  ((lo <=? N_of_ascii ch) && (N_of_ascii ch <=? hi))%N.

(** The bytes of U+FFFD, the replacement character. *)
Definition RuneError : string := String "239" (String "191" (String "189" "")).

(** [utf8.ValidString] *)
Fixpoint utf8_ValidString (s : string) : bool :=
  match s with
  | EmptyString => true
  | String b0 r0 =>
      match utf8First (N_of_ascii b0) with
      | None => false
      | Some (O, _, _) => utf8_ValidString r0
      | Some (1%nat, lo, hi) =>
          match r0 with
          | String b1 r1 => inRange lo hi b1 && utf8_ValidString r1
          | _ => false
          end
      | Some (2%nat, lo, hi) =>
          match r0 with
          | String b1 (String b2 r2) =>
              inRange lo hi b1 && inRange 0x80 0xBF b2 && utf8_ValidString r2
          | _ => false
          end
      | Some (_, lo, hi) =>
          match r0 with
          | String b1 (String b2 (String b3 r3)) =>
              inRange lo hi b1 && inRange 0x80 0xBF b2 && inRange 0x80 0xBF b3
              && utf8_ValidString r3
          | _ => false
          end
      end
  end.

(** The string a JSON string written by [encoding/json] denotes: the
    encoder copies every well-formed sequence (its escapes denote the same
    characters) and writes U+FFFD for a byte that starts none, one byte at
    a time. *)
Fixpoint toValidUTF8 (s : string) : string :=
  match s with
  | EmptyString => EmptyString
  | String b0 r0 =>
      let invalid := (RuneError ++ toValidUTF8 r0)%string in
      match utf8First (N_of_ascii b0) with
      | None => invalid
      | Some (O, _, _) => String b0 (toValidUTF8 r0)
      | Some (1%nat, lo, hi) =>
          match r0 with
          | String b1 r1 =>
              if inRange lo hi b1
              then String b0 (String b1 (toValidUTF8 r1))
              else invalid
          | _ => invalid
          end
      | Some (2%nat, lo, hi) =>
          match r0 with
          | String b1 (String b2 r2) =>
              if inRange lo hi b1 && inRange 0x80 0xBF b2
              then String b0 (String b1 (String b2 (toValidUTF8 r2)))
              else invalid
          | _ => invalid
          end
      | Some (_, lo, hi) =>
          match r0 with
          | String b1 (String b2 (String b3 r3)) =>
              if inRange lo hi b1 && inRange 0x80 0xBF b2
                 && inRange 0x80 0xBF b3
              then String b0 (String b1 (String b2 (String b3
                     (toValidUTF8 r3))))
              else invalid
          | _ => invalid
          end
      end
  end.

(** ** Header values as fasthttp stores them

    [ResponseHeader.Set] passes the value through [removeNewLines], which
    overwrites every carriage return and line feed with a space. *)
Definition isNewLine (ch : ascii) : bool :=
  Ascii.eqb ch "013" || Ascii.eqb ch "010".

Fixpoint removeNewLines (raw : string) : string :=
  match raw with
  | EmptyString => EmptyString
  | String ch rest =>
      String (if isNewLine ch then " "%char else ch) (removeNewLines rest)
  end.

Fixpoint hasNewLine (s : string) : bool :=
  match s with
  | EmptyString => false
  | String ch rest => isNewLine ch || hasNewLine rest
  end.

(** ** The handlers' own types *)

(** [type errRep struct { Message string `json:"message,omitempty"` }] *)
Record errRep := { Message : string }.

(** [encoding/json] on [errRep]: [omitempty] drops the member when the string
    is empty; otherwise the member is the string as the encoder writes it. *)
Definition marshal_errRep (r : errRep) : json :=
  JObject (if decide (Message r = "") then []
           else [("message", JString (toValidUTF8 (Message r)))]).

Definition defaultNum : Z := 10.

(** ** The [ArticleService] interface

    A method is a function of the state [Σ] of the implementation behind the
    interface; a method that receives a [*domain.Article] also returns the
    article as it left it.  The [context.Context] argument, the request's
    own [c.Context()], is left out: what an implementation reads from it
    is part of its state [Σ] here, and nothing below is about how an answer
    depends on the request beyond the arguments shown. *)
Module ArticleService.
Record t (Article Σ : Type) := {
  Fetch : string → Z → Σ → (slice Article * string * error) * Σ;
  GetByID : Z → Σ → (Article * error) * Σ;
  Update : Article → Σ → (Article * error) * Σ;
  GetByTitle : string → Σ → (Article * error) * Σ;
  Store : Article → Σ → (Article * error) * Σ;
  Delete : Z → Σ → error * Σ
}.
Arguments Fetch {Article Σ}.
Arguments GetByID {Article Σ}.
Arguments Update {Article Σ}.
Arguments GetByTitle {Article Σ}.
Arguments Store {Article Σ}.
Arguments Delete {Article Σ}.
End ArticleService.

Section rest.

(** [domain.Article] is declared in package [domain], outside this file:
    the type, its zero value (what [var article domain.Article] holds) and
    its JSON encoding are parameters. *)
Context {Article : Type}.
Context (zeroArticle : Article) (marshalArticle : Article → json).

(** [domain.ErrInternalServerError], [domain.ErrNotFound] and
    [domain.ErrConflict], the error variables of package [domain]. *)
Context (ErrInternalServerError ErrNotFound ErrConflict : goerror).

(** A call a handler made on the service, with its arguments. *)
Inductive Call :=
| CallFetch (cursor : string) (num : Z)
| CallGetByID (id : Z)
| CallStore (ar : Article)
| CallDelete (id : Z).

(** The values the handlers pass to [c.JSON] as [interface{}]. *)
Inductive value :=
| VInt (n : Z)
| VErrRep (r : errRep)
| VArticle (a : Article)
| VArticles (l : slice Article).

(** [json.Marshal], fiber's default [JSONEncoder]. *)
Definition json_Marshal (v : value) : json :=
  match v with
  | VInt n => JNumber n
  | VErrRep r => marshal_errRep r
  | VArticle a => marshalArticle a
  | VArticles None => JNull
  | VArticles (Some l) => JArray (marshalArticle <$> l)
  end.

Context {Σ : Type}.

Record World := {
  request : Request;
  response : Response;
  svcState : Σ;
  calls : list Call;       (* the calls made on the service, oldest first *)
  logged : list goerror    (* what logrus.Error was given, oldest first *)
}.

(** *** The state monad of a handler *)
Definition M (A : Type) : Type := World → A * World.

Definition ret {A} (a : A) : M A := λ w, (a, w).

Definition bind {A B} (m : M A) (k : A → M B) : M B :=
  λ w, let (a, w') := m w in k a w'.

Notation "x <- m ;; k" := (bind m (λ x, k))
  (at level 100, m at next level, right associativity).

Definition set_response (r : Response) (w : World) : World :=
  {| request := request w; response := r; svcState := svcState w;
     calls := calls w; logged := logged w |}.

(** *** fiber's [Ctx] methods *)

(** [c.Query(key)] and [c.Params(key)]: the value, or the empty string
    when the key is absent. *)
Definition Query (w : World) (key : string) : string :=
  default "" (reqQuery (request w) !! key).

Definition Params (w : World) (key : string) : string :=
  default "" (reqParams (request w) !! key).

Definition c_Query (key : string) : M string := λ w, (Query w key, w).
Definition c_Params (key : string) : M string := λ w, (Params w key, w).

(** [c.Set(key, val)] is [c.fasthttp.Response.Header.Set(key, val)]: it
    sets a response header to the value without its line breaks. *)
Definition c_Set (key val : string) : M unit :=
  λ w, let r := response w in
       (tt, set_response
              {| respStatus := respStatus r;
                 respHeaders := <[key := removeNewLines val]> (respHeaders r);
                 respBody := respBody r |} w).

(** [func (c *Ctx) JSON(data interface{}, ctype ...string) error]:
    the encoding of [data] replaces the body, the Content-Type header
    becomes [ctype[0]] when given and [application/json] otherwise, the
    status is left alone, and the result is [nil] (the encoder does not
    fail on the values of [value]). *)
Definition c_JSON (data : value) (ctype : list string) : M error :=
  λ w, let r := response w in
       (None, set_response
                {| respStatus := respStatus r;
                   respHeaders :=
                     <["Content-Type" := List.hd MIMEApplicationJSON ctype]>
                       (respHeaders r);
                   respBody := Some (json_Marshal data) |} w).

(** [logrus.Error(err)] *)
Definition logrus_Error (e : goerror) : M unit :=
  λ w, (tt, {| request := request w; response := response w;
               svcState := svcState w; calls := calls w;
               logged := logged w ++ [e] |}).

(** *** Calls through [a.Service] *)
Context (svc : ArticleService.t Article Σ).

Definition call {A} (c : Call) (method : Σ → A * Σ) : M A :=
  λ w, let (a, σ) := method (svcState w) in
       (a, {| request := request w; response := response w;
              svcState := σ; calls := calls w ++ [c];
              logged := logged w |}).

Definition Service_Fetch (cursor : string) (num : Z) :=
  call (CallFetch cursor num) (ArticleService.Fetch svc cursor num).
Definition Service_GetByID (id : Z) :=
  call (CallGetByID id) (ArticleService.GetByID svc id).
Definition Service_Store (ar : Article) :=
  call (CallStore ar) (ArticleService.Store svc ar).
Definition Service_Delete (id : Z) :=
  call (CallDelete id) (ArticleService.Delete svc id).

(** *** The handlers *)

Definition ReturnErr (er : error) : M error :=
  match er with
  | Some e => c_JSON (VErrRep {| Message := Error e |}) []
  | None => ret None
  end.

Definition FetchArticle : M error :=
  numS <- c_Query "num" ;;
  let num := match Atoi numS with
             | Some num => if num =? 0 then defaultNum else num
             | None => defaultNum
             end in
  cursor <- c_Query "cursor" ;;
  r <- Service_Fetch cursor num ;;
  let '(listAr, nextCursor, err) := r in
  rep <- ReturnErr err ;;
  match rep with
  | Some _ => ret rep
  | None =>
      _ <- c_Set "X-Cursor" nextCursor ;;
      c_JSON (VArticles listAr) []
  end.

Definition GetByID : M error :=
  idS <- c_Params "id" ;;
  match Atoi idS with
  | None => c_JSON (VInt StatusNotFound) [Error ErrNotFound]
  | Some id =>
      r <- Service_GetByID id ;;
      let '(art, err) := r in
      rep <- ReturnErr err ;;
      match rep with
      | Some _ => ret rep
      | None => c_JSON (VArticle art) []
      end
  end.

Definition Store : M error :=
  let article := zeroArticle in
  r <- Service_Store article ;;
  let '(article, err) := r in
  rep <- ReturnErr err ;;
  match rep with
  | Some _ => ret rep
  | None => c_JSON (VArticle article) []
  end.

Definition Delete : M error :=
  idS <- c_Params "id" ;;
  match Atoi idS with
  | None => c_JSON (VInt StatusNotFound) [Error ErrNotFound]
  | Some id =>
      err <- Service_Delete id ;;
      rep <- ReturnErr err ;;
      match rep with
      | Some _ => ret rep
      | None => ret None
      end
  end.

Definition getStatusCode (err : error) : M Z :=
  match err with
  | None => ret StatusOK
  | Some e =>
      _ <- logrus_Error e ;;
      if decide (e = ErrInternalServerError) then ret StatusInternalServerError
      else if decide (e = ErrNotFound) then ret StatusNotFound
      else if decide (e = ErrConflict) then ret StatusConflict
      else ret StatusInternalServerError
  end.

End rest.

Arguments World : clear implicits.
Arguments Call : clear implicits.

(** Running a handler: its definition and the monad's. *)
Create HintDb rest discriminated.
#[global] Hint Unfold FetchArticle GetByID Store Delete getStatusCode
  bind ret c_Query c_Params call logrus_Error
  Service_Fetch Service_GetByID Service_Store Service_Delete : rest.

(** ** A test double

    A small article type and a stub [ArticleService] to run the handlers
    on: the stub counts the calls it answers in its state, and answers every
    call with the error it was built with. *)
Module Mock.

Record Article := { ID : Z; Title : string }.

Definition zero : Article := {| ID := 0; Title := "" |}.

Definition marshal (a : Article) : json :=
  JObject [("id", JNumber (ID a)); ("title", JString (toValidUTF8 (Title a)))].

Definition ErrInternalServerError : goerror := errors_New 1 "internal server error".
Definition ErrNotFound : goerror := errors_New 2 "not found".
Definition ErrConflict : goerror := errors_New 3 "conflict".

Definition service (err : error) : ArticleService.t Article nat := {|
  ArticleService.Fetch cursor num n :=
    match err with
    | None => (Some [{| ID := 1; Title := "a" |}], "cursor123", None, S n)
    | Some _ => (None, "", err, S n)
    end;
  ArticleService.GetByID id n :=
    match err with
    | None => ({| ID := id; Title := "a" |}, None, S n)
    | Some _ => (zero, err, S n)
    end;
  ArticleService.Update ar n := (ar, err, S n);
  ArticleService.GetByTitle title n :=
    match err with
    | None => ({| ID := 1; Title := title |}, None, S n)
    | Some _ => (zero, err, S n)
    end;
  ArticleService.Store ar n :=
    match err with
    | None => ({| ID := Z.of_nat (S n); Title := Title ar |}, None, S n)
    | Some _ => (ar, err, S n)
    end;
  ArticleService.Delete id n := (err, S n)
|}.

(** A service whose [Fetch] succeeds with no article and the given next
    cursor, and that is [service None] otherwise. *)
Definition paging (nextCursor : string) : ArticleService.t Article nat := {|
  ArticleService.Fetch cursor num n := (Some [], nextCursor, None, S n);
  ArticleService.GetByID := ArticleService.GetByID (service None);
  ArticleService.Update := ArticleService.Update (service None);
  ArticleService.GetByTitle := ArticleService.GetByTitle (service None);
  ArticleService.Store := ArticleService.Store (service None);
  ArticleService.Delete := ArticleService.Delete (service None)
|}.

(** A request with the given query string and route parameters, a fresh
    response, and a service nothing was asked of yet. *)
Definition world (query params : list (string * string)) : World Article nat :=
  {| request := {| reqQuery := list_to_map query;
                   reqParams := list_to_map params |};
     response := emptyResponse;
     svcState := 0%nat;
     calls := [];
     logged := [] |}.

End Mock.

(** ** Route registration *)

Section routes.

Context {Article : Type}.
Context (zeroArticle : Article) (marshalArticle : Article → json).
Context (ErrNotFound : goerror).
Context {Σ : Type}.

(** The HTTP methods the file registers handlers for. *)
Inductive Method := MethodGet | MethodPost | MethodDelete.

(** A registered route, and the [*fiber.App] as the stack of its routes, in
    the order of registration. *)
Record Route := {
  routeMethod : Method;
  routePath : string;
  routeHandler : @M Article Σ error
}.

Definition App : Type := list Route.

(** [e.Get(path, handler)], [e.Post(path, handler)] and
    [e.Delete(path, handler)] push one route. *)
Definition e_Get (path : string) (handler : @M Article Σ error) (e : App) : App :=
  e ++ [{| routeMethod := MethodGet; routePath := path;
           routeHandler := handler |}].

Definition e_Post (path : string) (handler : @M Article Σ error) (e : App) : App :=
  e ++ [{| routeMethod := MethodPost; routePath := path;
           routeHandler := handler |}].

Definition e_Delete (path : string) (handler : @M Article Σ error) (e : App) : App :=
  e ++ [{| routeMethod := MethodDelete; routePath := path;
           routeHandler := handler |}].

Definition NewArticleHandler (e : App) (svc : ArticleService.t Article Σ) : App :=
  let e := e_Get "/articles" (FetchArticle marshalArticle svc) e in
  let e := e_Post "/articles" (Store zeroArticle marshalArticle svc) e in
  let e := e_Get "/articles/:id" (GetByID marshalArticle ErrNotFound svc) e in
  e_Delete "/articles/:id" (Delete marshalArticle ErrNotFound svc) e.

End routes.

Arguments Route : clear implicits.
Arguments App : clear implicits.

Create HintDb routes discriminated.
#[global] Hint Unfold NewArticleHandler e_Get e_Post e_Delete : routes.

(** ** Validation *)

Section validation.

Context {Article : Type}.

(** [validator.New().Struct(m)] of [gopkg.in/go-playground/validator.v9]:
    the check of the struct tags of [domain.Article], a parameter. *)
Context (validate_Struct : Article → error).

Definition isRequestValid (m : Article) : bool * error :=
  let err := validate_Struct m in
  match err with
  | Some _ => (false, err)
  | None => (true, None)
  end.

End validation.

(** ** Decimal numerals *)

(** [strconv.Itoa] for the numbers of [int]: the decimal numeral of [n],
    with a minus sign for a negative number and no leading zero. *)
Definition Itoa (n : Z) : string := NilZero.string_of_int (Z.to_int n).

Definition isDigit (ch : ascii) : bool :=
  match digit ch with Some _ => true | None => false end.

Fixpoint allDigits (s : string) : bool :=
  match s with
  | EmptyString => true
  | String ch rest => isDigit ch && allDigits rest
  end.

(** A numeral as [strconv.Atoi] reads it: an optional sign, then one or
    more decimal digits and nothing else. *)
Definition isNumeral (s : string) : bool :=
  match s with
  | EmptyString => false
  | String ch rest =>
      if Ascii.eqb ch "-" || Ascii.eqb ch "+"
      then negb (String.eqb rest "") && allDigits rest
      else allDigits s
  end.

(** * Properties *)

(** ** The parser on a few inputs *)

Example Atoi_examples :
  Atoi "abc" = None ∧ Atoi "" = None ∧ Atoi "-" = None ∧ Atoi "1_0" = None ∧
  Atoi " 1" = None ∧ Atoi "0" = Some 0 ∧ Atoi "-0" = Some 0 ∧
  Atoi "42" = Some 42 ∧ Atoi "+7" = Some 7 ∧ Atoi "-5" = Some (-5) ∧
  Atoi "9223372036854775807" = Some maxInt ∧
  Atoi "9223372036854775808" = None ∧
  Atoi "-9223372036854775808" = Some minInt.
Proof. repeat split; reflexivity. Qed.

(** A successful parse is inside the range of [int], so that [int64(num)]
    is the same number. *)
Lemma Atoi_range s n : Atoi s = Some n → minInt <= n <= maxInt.
Proof.
  unfold Atoi. destruct s as [|ch rest]; [done|].
  cbv zeta.
  destruct (if _ : bool then rest else _) as [|ch' body]; [done|].
  destruct (digits _ _) as [m|]; [|done].
  destruct (andb _ _) eqn:Hb; [|done].
  intros [= <-]. apply andb_prop in Hb as [H1 H2]. lia.
Qed.

(** ** Header values and JSON strings *)

Lemma removeNewLines_id s : hasNewLine s = false → removeNewLines s = s.
Proof.
  induction s as [|ch rest IH]; [done|]. cbn.
  intros [-> Hrest]%orb_false_elim. by rewrite IH.
Qed.

Lemma removeNewLines_clean s : hasNewLine (removeNewLines s) = false.
Proof.
  induction s as [|ch rest IH]; [done|]. cbn.
  rewrite IH, orb_false_r. by destruct (isNewLine ch) eqn:Hch.
Qed.

Lemma removeNewLines_length s :
  String.length (removeNewLines s) = String.length s.
Proof. induction s as [|ch rest IH]; [done|]. cbn. by rewrite IH. Qed.

(** The encoder copies a string that is valid UTF-8. *)
Lemma toValidUTF8_valid s : utf8_ValidString s = true → toValidUTF8 s = s.
Proof.
  remember (String.length s) as n eqn:Hn. revert s Hn.
  induction n as [n IH] using lt_wf_ind. intros s -> Hvalid.
  destruct s as [|b0 r0]; [done|].
  cbn [utf8_ValidString toValidUTF8] in *.
  destruct (utf8First (N_of_ascii b0)) as [[[[|[|[|k]]] lo] hi]|]; [..|done].
  - f_equal. eapply IH; [|done..]. cbn. lia.
  - destruct r0 as [|b1 r1]; [done|].
    apply andb_prop in Hvalid as [-> Hvalid].
    do 2 f_equal. eapply IH; [|done..]. cbn. lia.
  - destruct r0 as [|b1 [|b2 r2]]; [done..|].
    apply andb_prop in Hvalid as [-> Hvalid].
    do 3 f_equal. eapply IH; [|done..]. cbn. lia.
  - destruct r0 as [|b1 [|b2 [|b3 r3]]]; [done..|].
    apply andb_prop in Hvalid as [-> Hvalid].
    do 4 f_equal. eapply IH; [|done..]. cbn. lia.
Qed.

Lemma toValidUTF8_nonempty s : s ≠ "" → toValidUTF8 s ≠ "".
Proof.
  destruct s as [|b0 r0]; [done|]. intros _. cbn [toValidUTF8].
  destruct (utf8First _) as [[[[|[|[|k]]] lo] hi]|]; [done|..|done].
  - destruct r0 as [|b1 r1]; [done|]. by destruct (inRange lo hi b1).
  - destruct r0 as [|b1 [|b2 r2]]; [done..|]. by destruct (andb _ _).
  - destruct r0 as [|b1 [|b2 [|b3 r3]]]; [done..|]. by destruct (andb _ _).
Qed.

Section rest_spec.

Context {Article Σ : Type}.
Context (zeroArticle : Article) (marshalArticle : Article → json).
Context (ErrInternalServerError ErrNotFound ErrConflict : goerror).
Context (svc : ArticleService.t Article Σ).

Implicit Types (w : World Article Σ) (e : goerror) (er : error).

Local Abbreviation ReturnErr := (ReturnErr (Σ := Σ) marshalArticle).
Local Abbreviation FetchArticle := (FetchArticle marshalArticle svc).
Local Abbreviation GetByID := (GetByID marshalArticle ErrNotFound svc).
Local Abbreviation Store := (Store zeroArticle marshalArticle svc).
Local Abbreviation Delete := (Delete marshalArticle ErrNotFound svc).
Local Abbreviation getStatusCode :=
  (getStatusCode (Article := Article) (Σ := Σ)
     ErrInternalServerError ErrNotFound ErrConflict).

(** *** The error translator *)

(** [c.JSON] hands back [nil], and so does [ReturnErr], whatever it is
    given. *)
Lemma ReturnErr_nil er w : (ReturnErr er w).1 = None.
Proof. by destruct er. Qed.

Lemma ReturnErr_calls er w : calls (ReturnErr er w).2 = calls w.
Proof. by destruct er. Qed.

Lemma ReturnErr_body e w :
  respBody (response (ReturnErr (Some e) w).2)
  = Some (marshal_errRep {| Message := Error e |}).
Proof. done. Qed.

(** *** What [FetchArticle] asks of the service *)

Lemma FetchArticle_calls w :
  calls (FetchArticle w).2
  = calls w ++ [CallFetch (Query w "cursor")
                  match Atoi (Query w "num") with
                  | Some num => if num =? 0 then defaultNum else num
                  | None => defaultNum
                  end].
Proof.
  autounfold with rest.
  destruct (ArticleService.Fetch _ _ _ _) as [[[listAr nextCursor] err] σ].
  by destruct err.
Qed.


(** *** What the handlers leave in the response *)

(** [FetchArticle] sets the header and writes the list whatever [Fetch]
    returned: [ReturnErr] never answers with a non-nil [rep]. *)
Lemma FetchArticle_response w cursor num listAr nextCursor err σ :
  last (calls (FetchArticle w).2) = Some (CallFetch cursor num) →
  ArticleService.Fetch svc cursor num (svcState w)
    = (listAr, nextCursor, err, σ) →
  (FetchArticle w).1 = None
  ∧ respBody (response (FetchArticle w).2)
    = Some (json_Marshal marshalArticle (VArticles listAr))
  ∧ respHeaders (response (FetchArticle w).2) !! "X-Cursor"
    = Some (removeNewLines nextCursor).
Proof.
  rewrite FetchArticle_calls, last_snoc. intros [= <- <-].
  autounfold with rest.
  intros ->. destruct err; cbn.
  all: by rewrite lookup_insert_ne, lookup_insert_eq.
Qed.

Lemma GetByID_response w id art err σ :
  Atoi (Params w "id") = Some id →
  ArticleService.GetByID svc id (svcState w) = (art, err, σ) →
  (GetByID w).1 = None
  ∧ calls (GetByID w).2 = calls w ++ [CallGetByID id]
  ∧ respBody (response (GetByID w).2) = Some (marshalArticle art).
Proof.
  autounfold with rest.
  intros -> ->. by destruct err.
Qed.

Lemma Store_response w article err σ :
  ArticleService.Store svc zeroArticle (svcState w) = (article, err, σ) →
  (Store w).1 = None
  ∧ respBody (response (Store w).2) = Some (marshalArticle article).
Proof.
  autounfold with rest.
  intros ->. by destruct err.
Qed.

Lemma Delete_response w id err σ :
  Atoi (Params w "id") = Some id →
  ArticleService.Delete svc id (svcState w) = (err, σ) →
  (Delete w).1 = None
  ∧ calls (Delete w).2 = calls w ++ [CallDelete id]
  ∧ response (Delete w).2
    = response (ReturnErr err w).2.
Proof.
  autounfold with rest.
  intros -> ->. by destruct err.
Qed.

(** A path parameter that is not an integer: the service is left alone,
    and [c.JSON(http.StatusNotFound, domain.ErrNotFound.Error())] encodes
    the number 404 as the body and makes the text of the error the
    Content-Type, with the status as it was. *)
Lemma parse_failure w :
  Atoi (Params w "id") = None →
  GetByID w = Delete w
  ∧ (GetByID w).1 = None
  ∧ calls (GetByID w).2 = calls w
  ∧ svcState (GetByID w).2 = svcState w
  ∧ response (GetByID w).2
    = {| respStatus := respStatus (response w);
         respHeaders :=
           <["Content-Type" := Error ErrNotFound]> (respHeaders (response w));
         respBody := Some (JNumber 404) |}.
Proof.
  autounfold with rest.
  by intros ->.
Qed.

(** C2, as the code has it. For the List operation, the [cursor] query
    parameter reaches [Fetch] as it is, the empty string included, and when
    [Fetch] succeeds the value of the [X-Cursor] response header is the
    [nextCursor] it returned with every carriage return and line feed
    replaced by a space: the same string, byte for byte, when it holds
    neither. *)
Theorem FetchArticle_cursor w :
  ∃ num,
    calls (FetchArticle w).2 = calls w ++ [CallFetch (Query w "cursor") num]
    ∧ ∀ listAr nextCursor σ,
        ArticleService.Fetch svc (Query w "cursor") num (svcState w)
          = (listAr, nextCursor, None, σ) →
        respHeaders (response (FetchArticle w).2) !! "X-Cursor"
          = Some (removeNewLines nextCursor)
        ∧ (hasNewLine nextCursor = false →
           respHeaders (response (FetchArticle w).2) !! "X-Cursor"
             = Some nextCursor).
Proof.
  eexists. split; [apply FetchArticle_calls|].
  intros listAr nextCursor σ HF.
  assert (respHeaders (response (FetchArticle w).2) !! "X-Cursor"
          = Some (removeNewLines nextCursor)) as Hheader.
  { eapply FetchArticle_response; [|exact HF].
    by rewrite FetchArticle_calls, last_snoc. }
  split; [exact Hheader|].
  intros Hclean. by rewrite Hheader, removeNewLines_id.
Qed.

(** C4. When the collaborator returns a nil error, [ReturnErr] writes
    nothing and returns nil, and each operation goes on to its success
    response: the list with the [X-Cursor] header (the next cursor as
    fasthttp stores it), the article, the stored article, and for Delete
    the response as it was. *)
Theorem nil_error_success w :
  ReturnErr None w = (None, w)
  ∧ (∀ cursor num listAr nextCursor σ,
       last (calls (FetchArticle w).2) = Some (CallFetch cursor num) →
       ArticleService.Fetch svc cursor num (svcState w)
         = (listAr, nextCursor, None, σ) →
       (FetchArticle w).1 = None
       ∧ respBody (response (FetchArticle w).2)
         = Some (json_Marshal marshalArticle (VArticles listAr))
       ∧ respHeaders (response (FetchArticle w).2) !! "X-Cursor"
         = Some (removeNewLines nextCursor))
  ∧ (∀ id art σ,
       Atoi (Params w "id") = Some id →
       ArticleService.GetByID svc id (svcState w) = (art, None, σ) →
       (GetByID w).1 = None
       ∧ respBody (response (GetByID w).2) = Some (marshalArticle art))
  ∧ (∀ article σ,
       ArticleService.Store svc zeroArticle (svcState w)
         = (article, None, σ) →
       (Store w).1 = None
       ∧ respBody (response (Store w).2) = Some (marshalArticle article))
  ∧ (∀ id σ,
       Atoi (Params w "id") = Some id →
       ArticleService.Delete svc id (svcState w) = (None, σ) →
       (Delete w).1 = None ∧ response (Delete w).2 = response w).
Proof.
  split; [done|]. split; [|split; [|split]].
  - intros * Hlast HF. exact (FetchArticle_response _ _ _ _ _ _ _ Hlast HF).
  - intros * Hid HG.
    destruct (GetByID_response _ _ _ _ _ Hid HG) as (? & _ & ?). done.
  - intros * HS. exact (Store_response _ _ _ _ HS).
  - intros * Hid HD.
    destruct (Delete_response _ _ _ _ Hid HD) as (? & _ & ?). done.
Qed.

(** C9. Every Store request hands the zero-valued Article to the
    collaborator's [Store], and on success the response body is that
    article as the collaborator left it. *)
Theorem Store_zero_article w :
  calls (Store w).2 = calls w ++ [CallStore zeroArticle]
  ∧ ∀ article σ,
      ArticleService.Store svc zeroArticle (svcState w)
        = (article, None, σ) →
      (Store w).1 = None
      ∧ respBody (response (Store w).2) = Some (marshalArticle article).
Proof.
  split.
  - autounfold with rest.
    destruct (ArticleService.Store _ _ _) as [[article err] σ].
    by destruct err.
  - intros article σ HS. exact (Store_response _ _ _ _ HS).
Qed.

(** *** The body of an error response *)

(** What [ReturnErr] writes for an error: no member for the empty text,
    and else the text as the encoder writes it. *)
Lemma marshal_errRep_nonempty m :
  m ≠ "" →
  marshal_errRep {| Message := m |}
  = JObject [("message", JString (toValidUTF8 m))].
Proof. intros Hm. unfold marshal_errRep. cbn. by case_decide. Qed.

(** C3, as the code has it. For every non-nil error whose [Error()] text
    is not empty, the error translator writes, as a JSON response, the
    object with the single member [message] holding that text as
    [encoding/json] writes it, U+FFFD standing for every byte that is not
    part of a well-formed UTF-8 sequence: the text itself when it is valid
    UTF-8.  This is what Delete answers with when the collaborator
    fails. *)
Theorem ReturnErr_writes_message e w :
  Error e ≠ "" →
  respBody (response (ReturnErr (Some e) w).2)
    = Some (JObject [("message", JString (toValidUTF8 (Error e)))])
  ∧ (utf8_ValidString (Error e) = true →
     respBody (response (ReturnErr (Some e) w).2)
       = Some (JObject [("message", JString (Error e))]))
  ∧ respHeaders (response (ReturnErr (Some e) w).2) !! "Content-Type"
    = Some MIMEApplicationJSON
  ∧ ∀ id σ,
      Atoi (Params w "id") = Some id →
      ArticleService.Delete svc id (svcState w) = (Some e, σ) →
      respBody (response (Delete w).2)
        = Some (JObject [("message", JString (toValidUTF8 (Error e)))]).
Proof.
  intros He. pose proof (marshal_errRep_nonempty _ He) as Hm.
  split; [by rewrite ReturnErr_body, Hm|]. split; [|split].
  - intros Hvalid. by rewrite ReturnErr_body, Hm, toValidUTF8_valid.
  - cbn. by rewrite lookup_insert_eq.
  - intros id σ Hid HD.
    destruct (Delete_response _ _ _ _ Hid HD) as (_ & _ & ->).
    by rewrite ReturnErr_body, Hm.
Qed.

(** C6, as the code has it. For every collaborator error whose [Error()]
    text is not empty, the body the error translator writes is a JSON
    object with a [message] member, and that body is the response of a
    failing Delete. *)
Theorem error_body_has_message e w :
  Error e ≠ "" →
  ∃ body,
    respBody (response (ReturnErr (Some e) w).2) = Some body
    ∧ is_Some (json_field "message" body)
    ∧ ∀ id σ,
        Atoi (Params w "id") = Some id →
        ArticleService.Delete svc id (svcState w) = (Some e, σ) →
        respBody (response (Delete w).2) = Some body.
Proof.
  intros He. exists (marshal_errRep {| Message := Error e |}).
  split; [apply ReturnErr_body|]. split.
  - rewrite (marshal_errRep_nonempty _ He). by eexists.
  - intros id σ Hid HD.
    destruct (Delete_response _ _ _ _ Hid HD) as (_ & _ & ->).
    apply ReturnErr_body.
Qed.

(** For an error whose [Error()] returns the empty string, the body
    [ReturnErr] writes is the empty JSON object: the [message] member is
    left out.  It is the response of Delete, the one handler that writes
    nothing after [ReturnErr]. *)
Lemma ReturnErr_empty_text e w :
  Error e = "" →
  respBody (response (ReturnErr (Some e) w).2) = Some (JObject [])
  ∧ json_field "message" (JObject []) = None
  ∧ respBody (response (ReturnErr (Some e) w).2)
    ≠ Some (JObject [("message", JString "")])
  ∧ ∀ id σ,
      Atoi (Params w "id") = Some id →
      ArticleService.Delete svc id (svcState w) = (Some e, σ) →
      respBody (response (Delete w).2) = Some (JObject []).
Proof.
  intros He.
  assert (marshal_errRep {| Message := Error e |} = JObject []) as Hm.
  { unfold marshal_errRep. cbn. by case_decide. }
  rewrite ReturnErr_body, Hm. repeat split; [done|].
  intros id σ Hid HD.
  destruct (Delete_response _ _ _ _ Hid HD) as (_ & _ & ->).
  by rewrite ReturnErr_body, Hm.
Qed.

(** *** The status classifier *)

(** C7. The classifier maps the not-found error to 404, the conflict error
    to 409, the internal-server error to 500 and every other non-nil error
    to 500, and for every non-nil error it logs that error, once, and
    touches nothing else.  The three errors of package [domain] are
    different values. *)
Theorem getStatusCode_classifies e w :
  ErrNotFound ≠ ErrInternalServerError →
  ErrConflict ≠ ErrInternalServerError →
  ErrConflict ≠ ErrNotFound →
  (getStatusCode (Some ErrNotFound) w).1 = 404
  ∧ (getStatusCode (Some ErrConflict) w).1 = 409
  ∧ (getStatusCode (Some ErrInternalServerError) w).1 = 500
  ∧ (e ≠ ErrInternalServerError → e ≠ ErrNotFound → e ≠ ErrConflict →
     (getStatusCode (Some e) w).1 = 500)
  ∧ logged (getStatusCode (Some e) w).2 = logged w ++ [e]
  ∧ (getStatusCode (Some e) w).2 = (logrus_Error e w).2.
Proof.
  intros Hnf Hc1 Hc2.
  autounfold with rest.
  repeat split; repeat case_decide; done.
Qed.

(** With no error there is nothing to log and the code is 200. *)
Lemma getStatusCode_nil w : getStatusCode None w = (200, w).
Proof. done. Qed.

End rest_spec.

(** * The properties on the test double *)


(** [GET /articles?cursor=c0] on a service that answers with the next
    cursor [cursor123], and on one that answers with a cursor of two lines. *)
Lemma FetchArticle_cursor_witness :
  let w := Mock.world [("cursor", "c0")] [] in
  let lines := String "a" (String "010" (String "b" "")) in
  calls (FetchArticle Mock.marshal (Mock.service None) w).2
    = [CallFetch "c0" 10]
  ∧ hasNewLine "cursor123" = false
  ∧ respHeaders (response (FetchArticle Mock.marshal (Mock.service None) w).2)
      !! "X-Cursor" = Some "cursor123"
  ∧ respHeaders (response (FetchArticle Mock.marshal (Mock.paging lines) w).2)
      !! "X-Cursor" = Some "a b".
Proof.
  intros w lines.
  destruct (FetchArticle_cursor Mock.marshal (Mock.service None) w)
    as (num & Hcalls & Hheader).
  destruct (FetchArticle_cursor Mock.marshal (Mock.paging lines) w)
    as (num' & _ & Hlines).
  split; [reflexivity|]. split; [reflexivity|]. split.
  - exact (proj2 (Hheader (Some [{| Mock.ID := 1; Mock.Title := "a" |}])
                    "cursor123" 1%nat eq_refl) eq_refl).
  - exact (proj1 (Hlines (Some []) lines 1%nat eq_refl)).
Defined.

(** The four operations on a service that succeeds: [GET /articles],
    [GET /articles/7], [POST /articles] and [DELETE /articles/7]. *)
Lemma nil_error_success_witness :
  let w := Mock.world [] [("id", "7")] in
  let svc := Mock.service None in
  Atoi (Params w "id") = Some 7
  ∧ ArticleService.Delete svc 7 (svcState w) = (None, 1%nat)
  ∧ (respBody (response (FetchArticle Mock.marshal svc w).2)
       = Some (JArray [JObject [("id", JNumber 1); ("title", JString "a")]])
     ∧ respHeaders (response (FetchArticle Mock.marshal svc w).2)
         !! "X-Cursor" = Some "cursor123")
  ∧ respBody (response (GetByID Mock.marshal Mock.ErrNotFound svc w).2)
    = Some (JObject [("id", JNumber 7); ("title", JString "a")])
  ∧ respBody (response (Store Mock.zero Mock.marshal svc w).2)
    = Some (JObject [("id", JNumber 1); ("title", JString "")])
  ∧ (Delete Mock.marshal Mock.ErrNotFound svc w).1 = None
  ∧ response (Delete Mock.marshal Mock.ErrNotFound svc w).2 = emptyResponse.
Proof.
  intros w svc. split; [reflexivity|]. split; [reflexivity|].
  destruct (nil_error_success Mock.zero Mock.marshal Mock.ErrNotFound svc w)
    as (_ & Hfetch & Hget & Hstore & Hdelete).
  split; [|split; [|split]].
  - exact (proj2 (Hfetch "" 10 (Some [{| Mock.ID := 1; Mock.Title := "a" |}])
                    "cursor123" 1%nat eq_refl eq_refl)).
  - exact (proj2 (Hget 7 {| Mock.ID := 7; Mock.Title := "a" |} 1%nat
                    eq_refl eq_refl)).
  - exact (proj2 (Hstore {| Mock.ID := 1; Mock.Title := "" |} 1%nat eq_refl)).
  - exact (Hdelete 7 1%nat eq_refl eq_refl).
Defined.

(** [POST /articles] on a service that assigns the identifier 1. *)
Lemma Store_zero_article_witness :
  let w := Mock.world [] [] in
  ArticleService.Store (Mock.service None) Mock.zero (svcState w)
    = ({| Mock.ID := 1; Mock.Title := "" |}, None, 1%nat)
  ∧ calls (Store Mock.zero Mock.marshal (Mock.service None) w).2
    = [CallStore Mock.zero]
  ∧ respBody (response (Store Mock.zero Mock.marshal (Mock.service None) w).2)
    = Some (JObject [("id", JNumber 1); ("title", JString "")]).
Proof.
  intros w. split; [reflexivity|].
  destruct (Store_zero_article Mock.zero Mock.marshal (Mock.service None) w)
    as [Hcalls Hbody].
  split; [exact Hcalls|].
  exact (proj2 (Hbody {| Mock.ID := 1; Mock.Title := "" |} 1%nat eq_refl)).
Defined.

(** [DELETE /articles/7] on a service that fails with [not found]. *)
Lemma ReturnErr_writes_message_witness :
  let w := Mock.world [] [("id", "7")] in
  let svc := Mock.service (Some Mock.ErrNotFound) in
  Error Mock.ErrNotFound ≠ ""
  ∧ utf8_ValidString (Error Mock.ErrNotFound) = true
  ∧ respBody (response (ReturnErr Mock.marshal (Some Mock.ErrNotFound) w).2)
    = Some (JObject [("message", JString "not found")])
  ∧ respBody (response (Delete Mock.marshal Mock.ErrNotFound svc w).2)
    = Some (JObject [("message", JString "not found")]).
Proof.
  intros w svc.
  assert (Error Mock.ErrNotFound ≠ "") as Htext by discriminate.
  destruct (ReturnErr_writes_message Mock.marshal Mock.ErrNotFound svc
              Mock.ErrNotFound w Htext)
    as (_ & Hvalid & _ & Hdelete).
  split; [exact Htext|]. split; [reflexivity|]. split.
  - exact (Hvalid eq_refl).
  - exact (Hdelete 7 1%nat eq_refl eq_refl).
Defined.

(** The same request, read for the [message] member. *)
Lemma error_body_has_message_witness :
  let w := Mock.world [] [("id", "7")] in
  Error Mock.ErrConflict ≠ ""
  ∧ ∃ body,
      respBody (response (Delete Mock.marshal Mock.ErrNotFound
                            (Mock.service (Some Mock.ErrConflict)) w).2)
        = Some body
      ∧ is_Some (json_field "message" body).
Proof.
  intros w.
  assert (Error Mock.ErrConflict ≠ "") as Htext by discriminate.
  split; [exact Htext|].
  destruct (error_body_has_message Mock.marshal Mock.ErrNotFound
              (Mock.service (Some Mock.ErrConflict)) Mock.ErrConflict w Htext)
    as (body & _ & Hfield & Hdelete).
  exists body. split; [|exact Hfield].
  apply (Hdelete 7 1%nat); reflexivity.
Defined.

(** [DELETE /articles/7] on a service that fails with an error whose text
    is empty. *)
Lemma ReturnErr_empty_text_example :
  let w := Mock.world [] [("id", "7")] in
  let e := errors_New 9 "" in
  Error e = ""
  ∧ respBody (response (Delete Mock.marshal Mock.ErrNotFound
                          (Mock.service (Some e)) w).2)
    = Some (JObject []).
Proof.
  intros w e. split; [reflexivity|].
  apply (ReturnErr_empty_text Mock.marshal Mock.ErrNotFound
           (Mock.service (Some e)) e w eq_refl)
    with (id := 7) (σ := 1%nat); reflexivity.
Defined.

(** The classifier on the three errors of the test double and on a fourth
    error that has the text of the first. *)
Lemma getStatusCode_classifies_witness :
  let w := Mock.world [] [] in
  let e := errors_New 9 "not found" in
  let code er :=
    (getStatusCode Mock.ErrInternalServerError Mock.ErrNotFound
       Mock.ErrConflict er w).1 in
  Mock.ErrNotFound ≠ Mock.ErrInternalServerError
  ∧ Mock.ErrConflict ≠ Mock.ErrInternalServerError
  ∧ Mock.ErrConflict ≠ Mock.ErrNotFound
  ∧ code (Some Mock.ErrNotFound) = 404
  ∧ code (Some Mock.ErrConflict) = 409
  ∧ code (Some Mock.ErrInternalServerError) = 500
  ∧ code (Some e) = 500.
Proof.
  intros w e code.
  assert (Mock.ErrNotFound ≠ Mock.ErrInternalServerError) as H1 by discriminate.
  assert (Mock.ErrConflict ≠ Mock.ErrInternalServerError) as H2 by discriminate.
  assert (Mock.ErrConflict ≠ Mock.ErrNotFound) as H3 by discriminate.
  destruct (getStatusCode_classifies (Article := Mock.Article)
              Mock.ErrInternalServerError Mock.ErrNotFound Mock.ErrConflict
              e w H1 H2 H3)
    as (Hnf & Hc & Hi & Hother & _).
  split; [exact H1|]. split; [exact H2|]. split; [exact H3|].
  split; [exact Hnf|]. split; [exact Hc|]. split; [exact Hi|].
  apply Hother; discriminate.
Defined.

(** * Where the code leaves the specification *)

(** C2, the claim as written fails: a next cursor of two lines does not
    reach the [X-Cursor] header byte for byte, the line feed leaves as a
    space. *)
Lemma cursor_header_counterexample :
  let nextCursor := String "a" (String "010" (String "b" "")) in
  let w := Mock.world [] [] in
  ArticleService.Fetch (Mock.paging nextCursor) "" 10 (svcState w)
    = (Some [], nextCursor, None, 1%nat)
  ∧ respHeaders (response (FetchArticle Mock.marshal
                             (Mock.paging nextCursor) w).2) !! "X-Cursor"
    = Some "a b"
  ∧ respHeaders (response (FetchArticle Mock.marshal
                             (Mock.paging nextCursor) w).2) !! "X-Cursor"
    ≠ Some nextCursor.
Proof. split; [reflexivity|]. split; [reflexivity | discriminate]. Qed.

(** C3, the claim as written fails: when the collaborator's error has an
    empty text, the body of the error response is not the object with the
    [message] member; and when the text is the one byte 0xFF, which is not
    UTF-8, the member holds U+FFFD and not the text. *)
Lemma error_body_counterexample :
  let e := errors_New 9 "" in
  let e' := errors_New 9 (String "255" "") in
  let w := Mock.world [] [("id", "7")] in
  ArticleService.Delete (Mock.service (Some e)) 7 (svcState w) = (Some e, 1%nat)
  ∧ respBody (response (Delete Mock.marshal Mock.ErrNotFound
                          (Mock.service (Some e)) w).2)
    ≠ Some (JObject [("message", JString (Error e))])
  ∧ respBody (response (Delete Mock.marshal Mock.ErrNotFound
                          (Mock.service (Some e')) w).2)
    = Some (JObject [("message", JString RuneError)])
  ∧ respBody (response (Delete Mock.marshal Mock.ErrNotFound
                          (Mock.service (Some e')) w).2)
    ≠ Some (JObject [("message", JString (Error e'))]).
Proof.
  split; [reflexivity|]. split; [discriminate|].
  split; [reflexivity | discriminate].
Qed.

(** C6, the claim as written fails: the body of that failing request has no
    [message] member. *)
Lemma message_field_counterexample :
  let e := errors_New 9 "" in
  let w := Mock.world [] [("id", "7")] in
  ∃ body,
    respBody (response (Delete Mock.marshal Mock.ErrNotFound
                          (Mock.service (Some e)) w).2) = Some body
    ∧ json_field "message" body = None.
Proof. exists (JObject []). split; reflexivity. Qed.

(** C5. [GET /articles/xyz]: the service is not called, and the response
    is not a not-found response: its status is still 200, its body is the
    JSON number 404 and its Content-Type is the text of
    [domain.ErrNotFound]. *)
Theorem GetByID_parse_failure_response :
  let w := Mock.world [] [("id", "xyz")] in
  let w' := (GetByID Mock.marshal Mock.ErrNotFound (Mock.service None) w).2 in
  Atoi (Params w "id") = None
  ∧ calls w' = []
  ∧ respStatus (response w') = StatusOK
  ∧ respBody (response w') = Some (JNumber 404)
  ∧ respHeaders (response w') !! "Content-Type" = Some "not found"
  ∧ (Delete Mock.marshal Mock.ErrNotFound (Mock.service None) w).2 = w'.
Proof. repeat split. Qed.

(** C8. [GET /articles] on a service whose [Fetch] fails: [ReturnErr]
    writes the error body and returns [nil], so the handler goes on, sets
    the [X-Cursor] header and replaces the body with the list. *)
Theorem FetchArticle_error_sets_cursor :
  let e := errors_New 9 "boom" in
  let w := Mock.world [] [] in
  let w' := (FetchArticle Mock.marshal (Mock.service (Some e)) w).2 in
  ArticleService.Fetch (Mock.service (Some e)) "" 10 (svcState w)
    = (None, "", Some e, 1%nat)
  ∧ calls w' = [CallFetch "" 10]
  ∧ respHeaders (response w') !! "X-Cursor" = Some ""
  ∧ respBody (response w') = Some JNull.
Proof. repeat split. Qed.

(** C10. A service that fails every call with an error whose text is
    empty: [ReturnErr] writes the empty JSON object, with no [message]
    member, and Delete answers with it; FetchArticle, GetByID and Store go
    on after [ReturnErr] and answer with [null] and with the article the
    service returned, not with the empty object. *)
Theorem empty_error_text_body_replaced :
  let e := errors_New 9 "" in
  let svc := Mock.service (Some e) in
  let w := Mock.world [] [("id", "7")] in
  respBody (response (ReturnErr Mock.marshal (Some e) w).2)
    = Some (JObject [])
  ∧ respBody (response (Delete Mock.marshal Mock.ErrNotFound svc w).2)
    = Some (JObject [])
  ∧ respBody (response (FetchArticle Mock.marshal svc w).2) = Some JNull
  ∧ respBody (response (GetByID Mock.marshal Mock.ErrNotFound svc w).2)
    = Some (JObject [("id", JNumber 0); ("title", JString "")])
  ∧ respBody (response (Store Mock.zero Mock.marshal svc w).2)
    = Some (JObject [("id", JNumber 0); ("title", JString "")]).
Proof. repeat split. Qed.


(** * More about the parser *)

Lemma isDigit_not_sign ch :
  isDigit ch = true → Ascii.eqb ch "-" || Ascii.eqb ch "+" = false.
Proof.
  intros Hd. apply orb_false_intro.
  - destruct (Ascii.eqb_spec ch "-") as [->|]; [discriminate Hd | done].
  - destruct (Ascii.eqb_spec ch "+") as [->|]; [discriminate Hd | done].
Qed.

Lemma digits_allDigits s n : is_Some (digits s n) ↔ allDigits s = true.
Proof.
  revert n. induction s as [|ch rest IH]; intros n; cbn.
  - split; [done | by eexists].
  - unfold isDigit. destruct (digit ch) as [d|]; cbn.
    + apply IH.
    + split; [by intros [? ?] | done].
Qed.

(** The digits read so far are the high-order part of the result. *)
Lemma digits_bounds s n v :
  0 <= n → digits s n = Some v →
  n * 10 ^ Z.of_nat (String.length s) <= v
  < (n + 1) * 10 ^ Z.of_nat (String.length s).
Proof.
  revert n v. induction s as [|ch rest IH]; intros n v Hn; cbn [digits].
  - intros [= <-]. cbn. lia.
  - unfold digit. cbv zeta.
    destruct (andb _ _) eqn:Hd; [|done].
    apply andb_prop in Hd as [Hd0 Hd9].
    apply Z.leb_le in Hd0, Hd9.
    set (d := Z.of_N (N_of_ascii ch) - 48) in *.
    intros Hv. apply IH in Hv; [|lia].
    cbn [String.length]. rewrite Nat2Z.inj_succ, Z.pow_succ_r by lia.
    set (p := 10 ^ Z.of_nat (String.length rest)) in *.
    assert (0 < p) by (apply Z.pow_pos_nonneg; lia).
    nia.
Qed.

Lemma Atoi_unsigned s v :
  s ≠ "" → allDigits s = true → digits s 0 = Some v →
  v <= maxInt → Atoi s = Some v.
Proof.
  intros Hs Hall Hv Hmax. destruct s as [|ch rest]; [done|].
  pose proof (digits_bounds _ _ _ (Z.le_refl 0) Hv) as Hb.
  cbn [allDigits] in Hall. apply andb_prop in Hall as [Hch _].
  unfold Atoi. rewrite (isDigit_not_sign _ Hch).
  destruct (Ascii.eqb ch "-") eqn:Hneg.
  { apply Ascii.eqb_eq in Hneg as ->. discriminate Hch. }
  cbv zeta. rewrite Hv.
  replace (andb _ _) with true; [done|].
  symmetry. apply andb_true_intro. split; apply Z.leb_le; [|done].
  unfold minInt, intSize. lia.
Qed.

Lemma Atoi_minus s v :
  s ≠ "" → digits s 0 = Some v → v <= - minInt →
  Atoi (String "-" s) = Some (- v).
Proof.
  intros Hs Hv Hmin. destruct s as [|ch rest]; [done|].
  pose proof (digits_bounds _ _ _ (Z.le_refl 0) Hv) as Hb.
  unfold Atoi. cbn [Ascii.eqb Bool.eqb orb]. cbv zeta. rewrite Hv.
  replace (andb _ _) with true; [done|].
  symmetry. apply andb_true_intro. split; apply Z.leb_le; [lia|].
  unfold maxInt, intSize. lia.
Qed.

Lemma allDigits_string_of_uint d :
  allDigits (NilEmpty.string_of_uint d) = true.
Proof. induction d; cbn; done. Qed.

Lemma digits_string_of_uint d acc :
  digits (NilEmpty.string_of_uint d) (Z.pos acc)
  = Some (Z.pos (Pos.of_uint_acc d acc)).
Proof.
  revert acc. induction d; intros acc; cbn [NilEmpty.string_of_uint];
    [done|..].
  all: cbn [digits Pos.of_uint_acc].
  all: unfold digit; cbn [N_of_ascii]; cbv zeta.
  all: try (rewrite <- IHd; f_equal; cbn; lia).
Qed.

Lemma digits_string_of_uint_0 d :
  digits (NilEmpty.string_of_uint d) 0 = Some (Z.of_N (Pos.of_uint d)).
Proof.
  induction d; cbn [NilEmpty.string_of_uint]; [done|..].
  all: cbn [digits Pos.of_uint]; unfold digit; cbn [N_of_ascii]; cbv zeta.
  all: cbn [Z.of_N]; try apply digits_string_of_uint.
  exact IHd.
Qed.

Lemma string_of_uint_nonempty d : d ≠ Nil → NilEmpty.string_of_uint d ≠ "".
Proof. by destruct d. Qed.

(** The parser reads back the decimal numeral of every number of [int]. *)
Lemma Atoi_Itoa n : minInt <= n <= maxInt → Atoi (Itoa n) = Some n.
Proof.
  intros [Hmin Hmax]. unfold Itoa.
  destruct n as [|p|p]; [done|..]; cbn [Z.to_int NilZero.string_of_int].
  all: pose proof (Unsigned.to_uint_nonnil p) as Hnil.
  all: assert (NilZero.string_of_uint (Pos.to_uint p)
               = NilEmpty.string_of_uint (Pos.to_uint p)) as ->
         by (by destruct (Pos.to_uint p)).
  all: pose proof (digits_string_of_uint_0 (Pos.to_uint p)) as Hd.
  all: rewrite Unsigned.of_to in Hd; cbn [Z.of_N] in Hd.
  - apply Atoi_unsigned; auto using string_of_uint_nonempty,
      allDigits_string_of_uint.
  - change (Z.neg p) with (- Z.pos p).
    apply Atoi_minus; auto using string_of_uint_nonempty. lia.
Qed.

(** What parses is a numeral: a sign at most, then digits only. *)
Lemma Atoi_isNumeral s n : Atoi s = Some n → isNumeral s = true.
Proof.
  destruct s as [|ch rest]; [done|]. unfold Atoi, isNumeral. cbv zeta.
  destruct (Ascii.eqb ch "-" || Ascii.eqb ch "+").
  - destruct rest as [|ch' rest']; [done|].
    destruct (digits _ 0) as [v|] eqn:Hv; [|done]. intros _.
    cbn [String.eqb negb andb].
    apply (digits_allDigits _ 0). by rewrite Hv.
  - destruct (digits _ 0) as [v|] eqn:Hv; [|done]. intros _.
    apply (digits_allDigits _ 0). by rewrite Hv.
Qed.

(** A numeral of at most 18 bytes is inside the range of [int]. *)
Lemma Atoi_short s :
  isNumeral s = true → (String.length s < 19)%nat → is_Some (Atoi s).
Proof.
  assert (∀ body v, (String.length body < 19)%nat →
            digits body 0 = Some v → 0 <= v < 10 ^ 18) as Hbound.
  { intros body v Hlen Hv.
    pose proof (digits_bounds _ _ _ (Z.le_refl 0) Hv) as Hb.
    assert (10 ^ Z.of_nat (String.length body) <= 10 ^ 18)
      by (apply Z.pow_le_mono_r; lia).
    lia. }
  destruct s as [|ch rest]; [done|]. unfold Atoi, isNumeral. cbv zeta.
  intros Hnum Hlen.
  destruct (Ascii.eqb ch "-" || Ascii.eqb ch "+") eqn:Hsign.
  - apply andb_prop in Hnum as [Hne Hall].
    destruct rest as [|ch' rest']; [done|].
    apply digits_allDigits with (n := 0) in Hall as [v Hv]. rewrite Hv.
    apply Hbound in Hv; [|cbn in *; lia].
    replace (andb _ _) with true; [by eexists|].
    symmetry. apply andb_true_intro.
    unfold minInt, maxInt, intSize.
    destruct (Ascii.eqb ch "-"); split; apply Z.leb_le; lia.
  - apply digits_allDigits with (n := 0) in Hnum as [v Hv]. rewrite Hv.
    apply Hbound in Hv; [|done].
    apply orb_false_elim in Hsign as [-> _].
    replace (andb _ _) with true; [by eexists|].
    symmetry. apply andb_true_intro.
    unfold minInt, maxInt, intSize. split; apply Z.leb_le; lia.
Qed.

(** * More about the handlers *)

(** Runs a handler on the world of the goal, by cases on the parse of its
    parameter and on what the service answers. *)
Ltac run_handler :=
  autounfold with rest;
  repeat match goal with
    | |- context [ArticleService.Fetch ?s ?c ?n ?σ] =>
        destruct (ArticleService.Fetch s c n σ) as [[[? ?] [?|]] ?]
    | |- context [ArticleService.GetByID ?s ?i ?σ] =>
        destruct (ArticleService.GetByID s i σ) as [[? [?|]] ?]
    | |- context [ArticleService.Store ?s ?a ?σ] =>
        destruct (ArticleService.Store s a σ) as [[? [?|]] ?]
    | |- context [ArticleService.Delete ?s ?i ?σ] =>
        destruct (ArticleService.Delete s i σ) as [[?|] ?]
    | |- context [Atoi ?s] => destruct (Atoi s)
    end;
  cbn.

Section rest_frame.

Context {Article Σ : Type}.
Context (zeroArticle : Article) (marshalArticle : Article → json).
Context (ErrNotFound : goerror).
Context (svc : ArticleService.t Article Σ).

Implicit Types (w : World Article Σ) (e : goerror) (er : error).
Implicit Types (h : @M Article Σ error) (app : App Article Σ).

Local Abbreviation FetchArticle := (FetchArticle marshalArticle svc).
Local Abbreviation GetByID := (GetByID marshalArticle ErrNotFound svc).
Local Abbreviation Store := (Store zeroArticle marshalArticle svc).
Local Abbreviation Delete := (Delete marshalArticle ErrNotFound svc).
Local Abbreviation NewArticleHandler :=
  (NewArticleHandler zeroArticle marshalArticle ErrNotFound).

(** What holds of the four handlers holds of every route of an app after
    registration, when it held of the routes the app had. *)
Lemma NewArticleHandler_Forall (P : @M Article Σ error → Prop) app :
  P FetchArticle → P Store → P GetByID → P Delete →
  Forall (λ r, P (routeHandler r)) app →
  Forall (λ r, P (routeHandler r)) (NewArticleHandler app svc).
Proof.
  intros HF HS HG HD Happ. autounfold with routes.
  repeat (apply Forall_app; split); try done.
  all: by apply Forall_singleton.
Qed.

(** X1. Every handler that [NewArticleHandler] registers returns a nil
    error on every request and with every service: an app whose handlers
    never fail still has that property after the registration. *)
Theorem registered_handlers_return_nil app :
  Forall (λ r, ∀ w, (routeHandler r w).1 = None) app →
  Forall (λ r, ∀ w, (routeHandler r w).1 = None) (NewArticleHandler app svc).
Proof.
  apply (NewArticleHandler_Forall (λ h, ∀ w, (h w).1 = None)).
  all: intros w; by run_handler.
Qed.

(** X2. No registered handler touches the request, the status of the
    response or the log: the status a response leaves with is the one it
    had before the handler ran, on success and on failure. *)
Theorem registered_handlers_keep_status app :
  let kept h := ∀ w,
    request (h w).2 = request w
    ∧ respStatus (response (h w).2) = respStatus (response w)
    ∧ logged (h w).2 = logged w in
  Forall (λ r, kept (routeHandler r)) app →
  Forall (λ r, kept (routeHandler r)) (NewArticleHandler app svc).
Proof.
  intros kept. apply (NewArticleHandler_Forall kept).
  all: intros w; by run_handler.
Qed.

(** X3. The only response headers a registered handler writes are
    Content-Type and X-Cursor; every other header is as it was. *)
Theorem registered_handlers_keep_headers app :
  let kept h := ∀ w key,
    key ≠ "Content-Type" → key ≠ "X-Cursor" →
    respHeaders (response (h w).2) !! key = respHeaders (response w) !! key in
  Forall (λ r, kept (routeHandler r)) app →
  Forall (λ r, kept (routeHandler r)) (NewArticleHandler app svc).
Proof.
  intros kept. apply (NewArticleHandler_Forall kept).
  all: intros w key Hct Hxc; run_handler.
  all: by rewrite ?lookup_insert_ne.
Qed.

(** X4. GetByID, Store and Delete never write the X-Cursor header. *)
Theorem only_FetchArticle_sets_cursor w :
  respHeaders (response (GetByID w).2) !! "X-Cursor"
    = respHeaders (response w) !! "X-Cursor"
  ∧ respHeaders (response (Store w).2) !! "X-Cursor"
    = respHeaders (response w) !! "X-Cursor"
  ∧ respHeaders (response (Delete w).2) !! "X-Cursor"
    = respHeaders (response w) !! "X-Cursor".
Proof.
  repeat split; run_handler.
  all: by rewrite ?lookup_insert_ne.
Qed.

(** *** The calls on the service *)

(** X5. GetByID and Delete call their service method once, with the parsed
    id, when the [id] parameter parses, and make no call otherwise; the
    service is left in the state that call returned. *)
Theorem id_handlers_calls w :
  calls (GetByID w).2
    = calls w ++ match Atoi (Params w "id") with
                 | Some id => [CallGetByID id]
                 | None => []
                 end
  ∧ svcState (GetByID w).2
    = match Atoi (Params w "id") with
      | Some id => (ArticleService.GetByID svc id (svcState w)).2
      | None => svcState w
      end
  ∧ calls (Delete w).2
    = calls w ++ match Atoi (Params w "id") with
                 | Some id => [CallDelete id]
                 | None => []
                 end
  ∧ svcState (Delete w).2
    = match Atoi (Params w "id") with
      | Some id => (ArticleService.Delete svc id (svcState w)).2
      | None => svcState w
      end.
Proof.
  repeat split; run_handler; by rewrite ?app_nil_r.
Qed.

(** X6. FetchArticle and Store call their service method exactly once on
    every request, and leave the service in the state that call returned. *)
Theorem list_and_store_call_once w :
  (∃ cursor num,
     calls (FetchArticle w).2 = calls w ++ [CallFetch cursor num]
     ∧ svcState (FetchArticle w).2
       = (ArticleService.Fetch svc cursor num (svcState w)).2)
  ∧ calls (Store w).2 = calls w ++ [CallStore zeroArticle]
  ∧ svcState (Store w).2
    = (ArticleService.Store svc zeroArticle (svcState w)).2.
Proof.
  split.
  - exists (Query w "cursor"),
      (match Atoi (Query w "num") with
       | Some num => if num =? 0 then defaultNum else num
       | None => defaultNum
       end).
    split; by run_handler.
  - split; by run_handler.
Qed.

(** X7. A request without the [num] and [cursor] query parameters asks the
    service for the default page size 10 from the empty cursor. *)
Theorem FetchArticle_no_query w :
  reqQuery (request w) !! "num" = None →
  reqQuery (request w) !! "cursor" = None →
  calls (FetchArticle w).2 = calls w ++ [CallFetch "" 10].
Proof.
  intros Hnum Hcursor. autounfold with rest. unfold Query.
  rewrite Hnum, Hcursor. cbn. by run_handler.
Qed.

(** X8. A list request whose [num] is the decimal numeral of a number [n]
    of [int] asks the service for [n] articles, and for 10 when [n] is 0. *)
Theorem FetchArticle_numeral w n :
  minInt <= n <= maxInt →
  reqQuery (request w) !! "num" = Some (Itoa n) →
  calls (FetchArticle w).2
    = calls w ++ [CallFetch (Query w "cursor") (if n =? 0 then 10 else n)].
Proof.
  intros Hn Hnum. autounfold with rest.
  replace (Query w "num") with (Itoa n) by (unfold Query; by rewrite Hnum).
  rewrite (Atoi_Itoa _ Hn). by run_handler.
Qed.

(** X9. A request for the path parameter that is the decimal numeral of a
    number [n] of [int], zero and negative numbers included, reaches the
    service's GetByID, or Delete, with [n]. *)
Theorem id_numeral w n :
  minInt <= n <= maxInt →
  reqParams (request w) !! "id" = Some (Itoa n) →
  calls (GetByID w).2 = calls w ++ [CallGetByID n]
  ∧ calls (Delete w).2 = calls w ++ [CallDelete n].
Proof.
  intros Hn Hid.
  assert (Atoi (Params w "id") = Some n) as Hparse.
  { unfold Params. rewrite Hid. by apply Atoi_Itoa. }
  split; autounfold with rest; rewrite Hparse; by run_handler.
Qed.

(** X10. A parameter that is not a numeral (an optional sign, then decimal
    digits only) never reaches the service: GetByID and Delete make no call
    and leave the service's state alone, and FetchArticle falls back to the
    page size 10. *)
Theorem not_a_numeral w :
  (isNumeral (Params w "id") = false →
     calls (GetByID w).2 = calls w ∧ svcState (GetByID w).2 = svcState w
     ∧ calls (Delete w).2 = calls w ∧ svcState (Delete w).2 = svcState w)
  ∧ (isNumeral (Query w "num") = false →
     calls (FetchArticle w).2 = calls w ++ [CallFetch (Query w "cursor") 10]).
Proof.
  assert (∀ s, isNumeral s = false → Atoi s = None) as Hnone.
  { intros s Hs. destruct (Atoi s) as [n|] eqn:Hn; [|done].
    apply Atoi_isNumeral in Hn. congruence. }
  split; intros Hs; apply Hnone in Hs.
  - repeat split; autounfold with rest; rewrite Hs; by rewrite ?app_nil_r.
  - autounfold with rest. rewrite Hs. by run_handler.
Qed.

(** X11. A path parameter that is a numeral of at most 18 bytes always
    reaches the service: GetByID and Delete make exactly one call. *)
Theorem short_numeral_id w :
  isNumeral (Params w "id") = true →
  (String.length (Params w "id") < 19)%nat →
  ∃ id, Atoi (Params w "id") = Some id
    ∧ calls (GetByID w).2 = calls w ++ [CallGetByID id]
    ∧ calls (Delete w).2 = calls w ++ [CallDelete id].
Proof.
  intros Hnum Hlen. destruct (Atoi_short _ Hnum Hlen) as [id Hid].
  exists id. split; [done|].
  split; autounfold with rest; rewrite Hid; by run_handler.
Qed.

(** *** The response *)

(** X12. The body FetchArticle, GetByID and Store answer with is the
    encoding of what the service returned, whether the service returned an
    error or not: the error body [ReturnErr] wrote is written over. *)
Theorem body_is_the_service_result w er :
  (∀ cursor num listAr nextCursor σ,
     last (calls (FetchArticle w).2) = Some (CallFetch cursor num) →
     ArticleService.Fetch svc cursor num (svcState w)
       = (listAr, nextCursor, er, σ) →
     respBody (response (FetchArticle w).2)
       = Some (json_Marshal marshalArticle (VArticles listAr)))
  ∧ (∀ id art σ,
       Atoi (Params w "id") = Some id →
       ArticleService.GetByID svc id (svcState w) = (art, er, σ) →
       respBody (response (GetByID w).2) = Some (marshalArticle art))
  ∧ (∀ article σ,
       ArticleService.Store svc zeroArticle (svcState w) = (article, er, σ) →
       respBody (response (Store w).2) = Some (marshalArticle article)).
Proof.
  split; [|split].
  - intros * Hlast HF.
    by destruct (FetchArticle_response marshalArticle svc _ _ _ _ _ _ _
                   Hlast HF) as (_ & ? & _).
  - intros * Hid HG.
    by destruct (GetByID_response marshalArticle ErrNotFound svc _ _ _ _ _
                   Hid HG) as (_ & _ & ?).
  - intros * HS.
    by destruct (Store_response zeroArticle marshalArticle svc _ _ _ _ HS).
Qed.

(** X13. FetchArticle and Store always answer with the Content-Type
    [application/json], and so does GetByID when its [id] parses; Delete
    sets it only when the service returned an error. *)
Theorem content_type_json w :
  respHeaders (response (FetchArticle w).2) !! "Content-Type"
    = Some "application/json"
  ∧ respHeaders (response (Store w).2) !! "Content-Type"
    = Some "application/json"
  ∧ (is_Some (Atoi (Params w "id")) →
     respHeaders (response (GetByID w).2) !! "Content-Type"
       = Some "application/json")
  ∧ (∀ id, Atoi (Params w "id") = Some id →
     respHeaders (response (Delete w).2) !! "Content-Type"
       = match (ArticleService.Delete svc id (svcState w)).1 with
         | Some _ => Some "application/json"
         | None => respHeaders (response w) !! "Content-Type"
         end).
Proof.
  split; [|split; [|split]].
  - run_handler; by rewrite lookup_insert_eq.
  - run_handler; by rewrite lookup_insert_eq.
  - intros [id Hid]. autounfold with rest. rewrite Hid.
    run_handler; by rewrite lookup_insert_eq.
  - intros id Hid. autounfold with rest. rewrite Hid.
    run_handler; by rewrite ?lookup_insert_eq.
Qed.

(** X14. The list FetchArticle answers with has the articles the service
    returned, as many and in the same order; a nil slice is answered with
    the JSON [null]. *)
Theorem FetchArticle_keeps_order w cursor num l nextCursor er σ :
  last (calls (FetchArticle w).2) = Some (CallFetch cursor num) →
  ArticleService.Fetch svc cursor num (svcState w) = (l, nextCursor, er, σ) →
  match l with
  | None => respBody (response (FetchArticle w).2) = Some JNull
  | Some articles =>
      ∃ items,
        respBody (response (FetchArticle w).2) = Some (JArray items)
        ∧ length items = length articles
        ∧ ∀ i, items !! i = marshalArticle <$> articles !! i
  end.
Proof.
  intros Hlast HF.
  destruct (FetchArticle_response marshalArticle svc _ _ _ _ _ _ _ Hlast HF)
    as (_ & Hbody & _).
  destruct l as [articles|]; [|done].
  exists (marshalArticle <$> articles). split; [done|]. split.
  - apply length_fmap.
  - intros i. apply list_lookup_fmap.
Qed.

End rest_frame.

Section classifier.

Context {Article Σ : Type}.
Context (ErrInternalServerError ErrNotFound ErrConflict : goerror).

Implicit Types (w : World Article Σ) (e : goerror) (er : error).

Local Abbreviation getStatusCode :=
  (getStatusCode (Article := Article) (Σ := Σ)
     ErrInternalServerError ErrNotFound ErrConflict).

(** X16. The classifier answers 200 exactly for the nil error, and 404, 409
    or 500 for every other error, whatever the three errors of package
    [domain] are. *)
Theorem getStatusCode_codes er w :
  ((getStatusCode er w).1 = 200 ↔ er = None)
  ∧ (er ≠ None → (getStatusCode er w).1 ∈ [404; 409; 500]).
Proof.
  destruct er as [e|]; autounfold with rest; cbn.
  - unfold StatusInternalServerError, StatusNotFound, StatusConflict.
    repeat case_decide; cbn; split; try done; intros _; set_solver.
  - done.
Qed.

(** X17. The classifier writes no response, calls no service and leaves the
    request alone; it logs the error it is given, and nothing for nil. *)
Theorem getStatusCode_frame er w :
  let w' := (getStatusCode er w).2 in
  request w' = request w ∧ response w' = response w
  ∧ svcState w' = svcState w ∧ calls w' = calls w
  ∧ logged w' = logged w ++ match er with Some e => [e] | None => [] end.
Proof.
  destruct er as [e|]; autounfold with rest; cbn.
  - by repeat case_decide.
  - by rewrite app_nil_r.
Qed.

(** X20. The classifier answers 404 for no error but the not-found error
    and 409 for no error but the conflict error: an error that only has
    the text of one of them gets 500. *)
Theorem getStatusCode_404_409 e w :
  ((getStatusCode (Some e) w).1 = 404 → e = ErrNotFound)
  ∧ ((getStatusCode (Some e) w).1 = 409 → e = ErrConflict).
Proof.
  autounfold with rest; cbn.
  unfold StatusInternalServerError, StatusNotFound, StatusConflict.
  by repeat case_decide.
Qed.

End classifier.

(** * The error body and the validation *)

(** X18. Reading the [message] member of an encoded [errRep], with the
    empty string for a missing member, gives back the message as the
    encoder writes it, which is the message itself when it is valid UTF-8;
    so two [errRep] with different messages, both valid UTF-8, have
    different encodings, although the empty message is left out. *)
Theorem marshal_errRep_message r1 r2 :
  default (JString "") (json_field "message" (marshal_errRep r1))
    = JString (toValidUTF8 (Message r1))
  ∧ (utf8_ValidString (Message r1) = true →
     default (JString "") (json_field "message" (marshal_errRep r1))
       = JString (Message r1))
  ∧ (utf8_ValidString (Message r1) = true →
     utf8_ValidString (Message r2) = true →
     r1 ≠ r2 → marshal_errRep r1 ≠ marshal_errRep r2).
Proof.
  assert (∀ r, default (JString "") (json_field "message" (marshal_errRep r))
               = JString (toValidUTF8 (Message r))) as Hread.
  { intros [m]. unfold marshal_errRep. cbn.
    case_decide as Hm; cbn; by rewrite ?Hm. }
  split; [apply Hread|]. split.
  - intros Hv. by rewrite Hread, toValidUTF8_valid.
  - intros Hv1 Hv2 Hne Heq. apply Hne.
    pose proof (Hread r1) as H1. rewrite Heq, Hread in H1.
    rewrite !toValidUTF8_valid in H1 by done.
    destruct r1, r2. cbn in H1. congruence.
Qed.

(** X19. [isRequestValid] answers [true] exactly when it answers a nil
    error, and the error it answers is the validator's. *)
Theorem isRequestValid_ok {Article : Type} (validate_Struct : Article → error)
    (m : Article) :
  ((isRequestValid validate_Struct m).1 = true
   ↔ (isRequestValid validate_Struct m).2 = None)
  ∧ (isRequestValid validate_Struct m).2 = validate_Struct m.
Proof.
  unfold isRequestValid. by destruct (validate_Struct m).
Qed.

(** X21. On an [id] that does not parse, GetByID and Delete are the same
    handler: the same answer, and the same world after it. *)
Theorem malformed_id_same_answer {Article Σ : Type}
    (marshalArticle : Article → json) (ErrNotFound : goerror)
    (svc : ArticleService.t Article Σ) (w : World Article Σ) :
  Atoi (Params w "id") = None →
  GetByID marshalArticle ErrNotFound svc w
  = Delete marshalArticle ErrNotFound svc w.
Proof.
  intros Hid. by apply parse_failure.
Qed.

(** * The further properties on the test double *)

Lemma registered_handlers_return_nil_witness :
  Forall (λ r, ∀ w, (routeHandler r w).1 = None)
    (NewArticleHandler Mock.zero Mock.marshal Mock.ErrNotFound []
       (Mock.service (Some Mock.ErrConflict))).
Proof.
  apply (registered_handlers_return_nil Mock.zero Mock.marshal
           Mock.ErrNotFound (Mock.service (Some Mock.ErrConflict)) []).
  apply Forall_nil_2.
Defined.

Lemma registered_handlers_keep_status_witness :
  Forall (λ r, ∀ w,
            request (routeHandler r w).2 = request w
            ∧ respStatus (response (routeHandler r w).2)
              = respStatus (response w)
            ∧ logged (routeHandler r w).2 = logged w)
    (NewArticleHandler Mock.zero Mock.marshal Mock.ErrNotFound []
       (Mock.service (Some Mock.ErrNotFound))).
Proof.
  apply (registered_handlers_keep_status Mock.zero Mock.marshal
           Mock.ErrNotFound (Mock.service (Some Mock.ErrNotFound)) []).
  apply Forall_nil_2.
Defined.

Lemma registered_handlers_keep_headers_witness :
  Forall (λ r, ∀ w key,
            key ≠ "Content-Type" → key ≠ "X-Cursor" →
            respHeaders (response (routeHandler r w).2) !! key
            = respHeaders (response w) !! key)
    (NewArticleHandler Mock.zero Mock.marshal Mock.ErrNotFound []
       (Mock.service None)).
Proof.
  apply (registered_handlers_keep_headers Mock.zero Mock.marshal
           Mock.ErrNotFound (Mock.service None) []).
  apply Forall_nil_2.
Defined.

(** [GET /articles] with no query string. *)
Lemma FetchArticle_no_query_witness :
  let w := Mock.world [] [] in
  reqQuery (request w) !! "num" = None
  ∧ reqQuery (request w) !! "cursor" = None
  ∧ calls (FetchArticle Mock.marshal (Mock.service None) w).2
    = [CallFetch "" 10].
Proof.
  intros w. split; [reflexivity|]. split; [reflexivity|].
  apply (FetchArticle_no_query Mock.marshal (Mock.service None) w);
    reflexivity.
Defined.

(** [GET /articles?num=25] and [GET /articles?num=0]. *)
Lemma FetchArticle_numeral_witness :
  Itoa 25 = "25" ∧ Itoa 0 = "0"
  ∧ calls (FetchArticle Mock.marshal (Mock.service None)
             (Mock.world [("num", "25")] [])).2
    = [CallFetch "" 25]
  ∧ calls (FetchArticle Mock.marshal (Mock.service None)
             (Mock.world [("num", "0")] [])).2
    = [CallFetch "" 10].
Proof.
  split; [reflexivity|]. split; [reflexivity|]. split.
  - apply (FetchArticle_numeral Mock.marshal (Mock.service None)
             (Mock.world [("num", "25")] []) 25); [|reflexivity].
    unfold minInt, maxInt, intSize. lia.
  - apply (FetchArticle_numeral Mock.marshal (Mock.service None)
             (Mock.world [("num", "0")] []) 0); [|reflexivity].
    unfold minInt, maxInt, intSize. lia.
Defined.

(** [GET /articles/-3] and [DELETE /articles/-3]. *)
Lemma id_numeral_witness :
  let w := Mock.world [] [("id", "-3")] in
  Itoa (-3) = "-3"
  ∧ calls (GetByID Mock.marshal Mock.ErrNotFound (Mock.service None) w).2
    = [CallGetByID (-3)]
  ∧ calls (Delete Mock.marshal Mock.ErrNotFound (Mock.service None) w).2
    = [CallDelete (-3)].
Proof.
  intros w. split; [reflexivity|].
  apply (id_numeral Mock.marshal Mock.ErrNotFound (Mock.service None) w (-3));
    [|reflexivity].
  unfold minInt, maxInt, intSize. lia.
Defined.

(** [GET /articles/0x10?num=1e3]: hexadecimal and exponents are no
    numerals. *)
Lemma not_a_numeral_witness :
  let w := Mock.world [("num", "1e3")] [("id", "0x10")] in
  isNumeral (Params w "id") = false ∧ isNumeral (Query w "num") = false
  ∧ calls (GetByID Mock.marshal Mock.ErrNotFound (Mock.service None) w).2 = []
  ∧ calls (FetchArticle Mock.marshal (Mock.service None) w).2
    = [CallFetch "" 10].
Proof.
  intros w. split; [reflexivity|]. split; [reflexivity|].
  destruct (not_a_numeral Mock.marshal Mock.ErrNotFound (Mock.service None) w)
    as [Hid Hnum].
  split.
  - exact (proj1 (Hid eq_refl)).
  - exact (Hnum eq_refl).
Defined.

(** [GET /articles/+0042]. *)
Lemma short_numeral_id_witness :
  let w := Mock.world [] [("id", "+0042")] in
  isNumeral (Params w "id") = true
  ∧ (String.length (Params w "id") < 19)%nat
  ∧ ∃ id,
      Atoi (Params w "id") = Some id
      ∧ calls (GetByID Mock.marshal Mock.ErrNotFound (Mock.service None) w).2
        = [CallGetByID id]
      ∧ calls (Delete Mock.marshal Mock.ErrNotFound (Mock.service None) w).2
        = [CallDelete id].
Proof.
  intros w.
  assert (String.length (Params w "id") < 19)%nat as Hlen
    by (vm_compute; lia).
  split; [reflexivity|]. split; [exact Hlen|].
  exact (short_numeral_id Mock.marshal Mock.ErrNotFound (Mock.service None)
           w eq_refl Hlen).
Defined.

(** [GET /articles/42] on a service that fails with [not found]: the body
    is the article the service returned with the error. *)
Lemma body_is_the_service_result_witness :
  let w := Mock.world [] [("id", "42")] in
  let svc := Mock.service (Some Mock.ErrNotFound) in
  ArticleService.GetByID svc 42 (svcState w)
    = (Mock.zero, Some Mock.ErrNotFound, 1%nat)
  ∧ respBody (response (GetByID Mock.marshal Mock.ErrNotFound svc w).2)
    = Some (JObject [("id", JNumber 0); ("title", JString "")]).
Proof.
  intros w svc. split; [reflexivity|].
  destruct (body_is_the_service_result Mock.zero Mock.marshal
              Mock.ErrNotFound svc w (Some Mock.ErrNotFound))
    as (_ & Hget & _).
  exact (Hget 42 Mock.zero 1%nat eq_refl eq_refl).
Defined.

(** [DELETE /articles/7], with and without an error of the service. *)
Lemma content_type_json_witness :
  let w := Mock.world [] [("id", "7")] in
  respHeaders (response (Delete Mock.marshal Mock.ErrNotFound
                           (Mock.service (Some Mock.ErrConflict)) w).2)
    !! "Content-Type" = Some "application/json"
  ∧ respHeaders (response (Delete Mock.marshal Mock.ErrNotFound
                             (Mock.service None) w).2)
      !! "Content-Type" = None
  ∧ respHeaders (response (GetByID Mock.marshal Mock.ErrNotFound
                             (Mock.service None) w).2)
      !! "Content-Type" = Some "application/json".
Proof.
  intros w. split; [|split].
  - destruct (content_type_json Mock.zero Mock.marshal Mock.ErrNotFound
                (Mock.service (Some Mock.ErrConflict)) w)
      as (_ & _ & _ & Hdel).
    exact (Hdel 7 eq_refl).
  - destruct (content_type_json Mock.zero Mock.marshal Mock.ErrNotFound
                (Mock.service None) w)
      as (_ & _ & _ & Hdel).
    exact (Hdel 7 eq_refl).
  - destruct (content_type_json Mock.zero Mock.marshal Mock.ErrNotFound
                (Mock.service None) w)
      as (_ & _ & Hget & _).
    apply Hget. by exists 7.
Defined.

(** [GET /articles] on a service that returns one article. *)
Lemma FetchArticle_keeps_order_witness :
  let w := Mock.world [] [] in
  ∃ items,
    respBody (response (FetchArticle Mock.marshal (Mock.service None) w).2)
      = Some (JArray items)
    ∧ length items = 1%nat
    ∧ ∀ i, items !! i
           = Mock.marshal <$> [{| Mock.ID := 1; Mock.Title := "a" |}] !! i.
Proof.
  intros w.
  exact (FetchArticle_keeps_order Mock.marshal (Mock.service None) w "" 10
           (Some [{| Mock.ID := 1; Mock.Title := "a" |}]) "cursor123" None
           1%nat eq_refl eq_refl).
Defined.

Lemma getStatusCode_codes_witness :
  let e := errors_New 9 "boom" in
  Some e ≠ None
  ∧ (getStatusCode Mock.ErrInternalServerError Mock.ErrNotFound
       Mock.ErrConflict (Some e) (Mock.world [] [])).1 ∈ [404; 409; 500].
Proof.
  intros e.
  assert (Some e ≠ None) as Hne by discriminate.
  split; [exact Hne|].
  exact (proj2 (getStatusCode_codes (Article := Mock.Article)
                  Mock.ErrInternalServerError Mock.ErrNotFound
                  Mock.ErrConflict (Some e) (Mock.world [] [])) Hne).
Defined.

(** The empty message and a message that is not empty. *)
Lemma marshal_errRep_message_witness :
  utf8_ValidString "" = true ∧ utf8_ValidString "gone" = true
  ∧ {| Message := "" |} ≠ {| Message := "gone" |}
  ∧ marshal_errRep {| Message := "" |}
    ≠ marshal_errRep {| Message := "gone" |}
  ∧ default (JString "") (json_field "message"
                            (marshal_errRep {| Message := "gone" |}))
    = JString "gone".
Proof.
  assert ({| Message := "" |} ≠ {| Message := "gone" |}) as Hne
    by discriminate.
  split; [reflexivity|]. split; [reflexivity|]. split; [exact Hne|].
  destruct (marshal_errRep_message {| Message := "" |}
              {| Message := "gone" |}) as (_ & _ & Hinj).
  destruct (marshal_errRep_message {| Message := "gone" |}
              {| Message := "" |}) as (_ & Hread & _).
  split; [exact (Hinj eq_refl eq_refl Hne) | exact (Hread eq_refl)].
Defined.

(** The classifier on the not-found error of the test double. *)
Lemma getStatusCode_404_409_witness :
  (getStatusCode Mock.ErrInternalServerError Mock.ErrNotFound
     Mock.ErrConflict (Some Mock.ErrNotFound) (Mock.world [] [])).1 = 404
  ∧ Mock.ErrNotFound = Mock.ErrNotFound.
Proof.
  assert ((getStatusCode Mock.ErrInternalServerError Mock.ErrNotFound
             Mock.ErrConflict (Some Mock.ErrNotFound) (Mock.world [] [])).1
          = 404) as Hcode by reflexivity.
  split; [exact Hcode|].
  exact (proj1 (getStatusCode_404_409 (Article := Mock.Article)
                  Mock.ErrInternalServerError Mock.ErrNotFound
                  Mock.ErrConflict Mock.ErrNotFound (Mock.world [] []))
           Hcode).
Defined.

(** [GET /articles/1.5] and [DELETE /articles/1.5]. *)
Lemma malformed_id_same_answer_witness :
  let w := Mock.world [] [("id", "1.5")] in
  Atoi (Params w "id") = None
  ∧ GetByID Mock.marshal Mock.ErrNotFound (Mock.service None) w
    = Delete Mock.marshal Mock.ErrNotFound (Mock.service None) w.
Proof.
  intros w. split; [reflexivity|].
  exact (malformed_id_same_answer Mock.marshal Mock.ErrNotFound
           (Mock.service None) w eq_refl).
Defined.
